(** * Mood Diary Compass: a shallow embedding of [gemini_logic.py] and [app.py]

    The development follows the two source files.  Python values are an
    inductive type of dynamic values, dictionaries are finite maps keyed by
    strings, and the callbacks are written in a state-and-exception monad
    over a world made of the Streamlit session state and the trace of the
    calls that leave the process (secrets lookups, client construction,
    model calls, messages shown to the user). *)

From stdpp Require Import base strings list gmap pretty.

Set Warnings "-register-all".
Open Scope Z_scope.

(** ** Python values, exceptions and the monad of the callbacks *)

Module Py.

Inductive PyVal :=
  | PyNone
  | PyBool (b : bool)
  | PyInt (z : Z)
  | PyStr (s : string)
  | PyList (l : list PyVal)
  | PyDict (m : gmap string PyVal).

(** Truth value of an object, as tested by [if x:] and [not x]. *)
Definition truthy (v : PyVal) : bool :=
  match v with
  | PyNone => false
  | PyBool b => b
  | PyInt z => negb (z =? 0)
  | PyStr s => negb (bool_decide (s = ""))
  | PyList l => negb (bool_decide (l = []))
  | PyDict m => negb (bool_decide (dom m = ∅))
  end.

(** Exceptions.  Every class below derives from [Exception]; the model
    leaves out [KeyboardInterrupt] and [SystemExit], which no library call
    of the program raises as a failure. *)
Inductive ExnClass :=
  | KeyError
  | TypeError
  | AttributeError
  | OtherException (name : string).

Record Exn := mkExn { exn_class : ExnClass; exn_str : string }.

Inductive Result (A : Type) :=
  | Ret (a : A)
  | Raise (e : Exn).
Arguments Ret {A} a.
Arguments Raise {A} e.

(** A computation threads a state [Σ] and either returns or raises. *)
Definition M (Σ A : Type) : Type := Σ → Result A * Σ.

Definition ret {Σ A} (a : A) : M Σ A := λ σ, (Ret a, σ).

Definition raise {Σ A} (e : Exn) : M Σ A := λ σ, (Raise e, σ).

Definition bind {Σ A B} (m : M Σ A) (k : A → M Σ B) : M Σ B := λ σ,
  match m σ with
  | (Ret a, σ') => k a σ'
  | (Raise e, σ') => (Raise e, σ')
  end.

Definition gets {Σ A} (f : Σ → A) : M Σ A := λ σ, (Ret (f σ), σ).

Definition modify {Σ} (f : Σ → Σ) : M Σ unit := λ σ, (Ret tt, f σ).

Definition lift {Σ A} (r : Result A) : M Σ A := λ σ, (r, σ).

(** [try: body  except C as e: handler e]; [catches] tells whether the
    raised exception is an instance of [C]. *)
Definition try_except {Σ A} (body : M Σ A) (catches : Exn → bool)
    (handler : Exn → M Σ A) : M Σ A := λ σ,
  match body σ with
  | (Ret a, σ') => (Ret a, σ')
  | (Raise e, σ') => if catches e then handler e σ' else (Raise e, σ')
  end.

(** [except Exception] catches every exception of the model. *)
Definition isinstance_Exception (e : Exn) : bool := true.

Definition isinstance_KeyError (e : Exn) : bool :=
  match exn_class e with KeyError => true | _ => false end.

(** [d[k]] on a dictionary. *)
Definition dict_getitem (d : gmap string PyVal) (k : string) : Result PyVal :=
  match d !! k with
  | Some v => Ret v
  | None => Raise (mkExn KeyError ("'" +:+ k +:+ "'"))
  end.

(** [d.get(k)]: the value, or [None] when the key is missing. *)
Definition dict_get (d : gmap string PyVal) (k : string) : PyVal :=
  default PyNone (d !! k).

(** [v[k]] on an arbitrary object with a string subscript. *)
Definition getitem (v : PyVal) (k : string) : Result PyVal :=
  match v with
  | PyDict d => dict_getitem d k
  | PyStr _ | PyList _ =>
      Raise (mkExn TypeError "indices must be integers or slices, not str")
  | _ => Raise (mkExn TypeError "object is not subscriptable")
  end.

(** [len(v)]. *)
Definition len (v : PyVal) : Result Z :=
  match v with
  | PyStr s => Ret (Z.of_nat (String.length s))
  | PyList l => Ret (Z.of_nat (length l))
  | PyDict m => Ret (Z.of_nat (size m))
  | _ => Raise (mkExn TypeError "object has no len()")
  end.

(** [c in chars] for a character and a string used as a set. *)
Fixpoint char_in (c : Ascii.ascii) (chars : string) : bool :=
  match chars with
  | EmptyString => false
  | String a rest => if Ascii.eqb c a then true else char_in c rest
  end.

(** [s.rstrip(chars)]: drop the longest suffix made of characters of
    [chars]. *)
Fixpoint rstrip (s chars : string) : string :=
  match s with
  | EmptyString => EmptyString
  | String a rest =>
      match rstrip rest chars with
      | EmptyString => if char_in a chars then EmptyString else String a EmptyString
      | kept => String a kept
      end
  end.

(** [f"{n}"] for an [int]. *)
Definition format_int (n : Z) : string := pretty n.

(** The last character of a string, if any. *)
Fixpoint last_char (s : string) : option Ascii.ascii :=
  match s with
  | EmptyString => None
  | String a EmptyString => Some a
  | String _ rest => last_char rest
  end.

(** [needle in s] for strings. *)
Fixpoint str_contains (needle s : string) : bool :=
  if String.prefix needle s then true
  else match s with
       | EmptyString => false
       | String _ rest => str_contains needle rest
       end.

End Py.

Export Py.

Declare Scope py_scope.
Delimit Scope py_scope with py.
Notation "x <- m ;; k" := (bind m (λ x, k))
  (at level 100, m at next level, right associativity) : py_scope.
Notation "m ;; k" := (bind m (λ _, k))
  (at level 100, right associativity) : py_scope.
Open Scope py_scope.

(** ** Structured output: the part of pydantic the schema classes use *)

Module pydantic.

(** Field annotations that occur in the program: [str], a [Literal] of
    strings, [List[T]] and a nested [BaseModel].  A model lists its fields
    with their annotation and, for an optional field, its default. *)
Inductive Ty :=
  | TStr
  | TLiteral (choices : list string)
  | TList (elem : Ty)
  | TModel (fields : list (string * (Ty * option PyVal))).

(** Validation of decoded JSON against an annotation.  A required field
    that is missing fails; a missing field with a default takes the
    default; keys the model does not declare are ignored. *)
Fixpoint model_validate (t : Ty) (j : PyVal) {struct t} : option PyVal :=
  match t, j with
  | TStr, PyStr s => Some (PyStr s)
  | TLiteral cs, PyStr s =>
      if bool_decide (s ∈ cs) then Some (PyStr s) else None
  | TList e, PyList l => PyList <$> mapM (model_validate e) l
  | TModel fs, PyDict o =>
      PyDict <$>
      (fix fields (fs : list (string * (Ty * option PyVal)))
          : option (gmap string PyVal) :=
         match fs with
         | [] => Some ∅
         | (k, (t, d)) :: fs' =>
             v ← match o !! k with
                 | Some j => model_validate t j
                 | None => d
                 end;
             m ← fields fs';
             Some (<[k:=v]> m)
         end) fs
  | _, _ => None
  end.

(** [obj.model_dump()], where [obj] is [None] when validation failed. *)
Definition model_dump (obj : option PyVal) : Result PyVal :=
  match obj with
  | Some d => Ret d
  | None =>
      Raise (mkExn AttributeError
               "'NoneType' object has no attribute 'model_dump'")
  end.

End pydantic.

Export pydantic.

(** ** The world outside the two modules *)

(** The request handed to [client.models.generate_content]. *)
Record Request := mkRequest {
  model : string;
  contents : string;
  config_system_instruction : string;
  config_response_mime_type : string;
  config_response_schema : Ty;
}.

(** What the SDK hands back: [parsed] is the decoded JSON validated against
    the request's schema, or [None] when the text is no JSON document or
    does not validate. *)
Record Response := mkResponse { parsed : option PyVal }.

(** One dictionary appended to [st.session_state.history]. *)
Record HistoryEntry := mkHistoryEntry {
  timestamp : Z;
  mood : PyVal;
  summary : PyVal;
  movies : Z;
  books : Z;
}.

(** [st.session_state]: the two slots the program initialises and the
    widget values Streamlit stores under the widgets' keys. *)
Record SessionState := mkSessionState {
  history : list HistoryEntry;
  report_data : PyVal;
  user_text : string;
  movie_toggle : bool;
  num_movies_slider : Z;
  book_toggle : bool;
  num_books_slider : Z;
}.

(** What leaves the process, in the order it happens. *)
Inductive Event :=
  | EvSecrets (key : string)
  | EvClient (api_key : option string)
  | EvGenerateContent (api_key : option string) (req : Request)
  | EvError (body : PyVal)
  | EvSpinner (text : string)
  | EvSidebarInfo (text : string)
  | EvLineChart (rows : list (Z * option Z)).

Record World := mkWorld {
  session_state : SessionState;
  events : list Event;
}.

(** The collaborators of one callback run: the secrets store, the
    constructor of the SDK client (which may refuse the key), the provider
    behind [generate_content] (which raises, or answers with decoded JSON,
    [None] standing for a body that is no JSON document), and the clock. *)
Record Env := mkEnv {
  secrets : gmap string string;
  genai_Client : option string → option Exn;
  provider : option string → Request → Result (option PyVal);
  Timestamp_now : Z;
}.

Definition emit (ev : Event) : M World unit :=
  modify (λ w, mkWorld (session_state w) (events w ++ [ev])).

Definition set_report_data (v : PyVal) : M World unit :=
  modify (λ w,
    let s := session_state w in
    mkWorld (mkSessionState (history s) v (user_text s) (movie_toggle s)
               (num_movies_slider s) (book_toggle s) (num_books_slider s))
            (events w)).

(** [st.session_state.history.append(entry)] *)
Definition history_append (entry : HistoryEntry) : M World unit :=
  modify (λ w,
    let s := session_state w in
    mkWorld (mkSessionState (history s ++ [entry]) (report_data s) (user_text s)
               (movie_toggle s) (num_movies_slider s) (book_toggle s)
               (num_books_slider s))
            (events w)).

(** [st.error(body)] *)
Definition st_error (body : PyVal) : M World unit := emit (EvError body).

(** [st.secrets[key]]: the store is a mapping, and a key it does not hold
    raises [KeyError]. *)
Definition secrets_getitem (env : Env) (key : string) : M World string :=
  emit (EvSecrets key) ;;
  match secrets env !! key with
  | Some v => ret v
  | None => raise (mkExn KeyError ("'" +:+ key +:+ "'"))
  end.

(** [genai.Client(api_key=api_key)]; the client is represented by the key
    it was built with. *)
Definition Client (env : Env) (api_key : option string) : M World (option string) :=
  emit (EvClient api_key) ;;
  match genai_Client env api_key with
  | None => ret api_key
  | Some e => raise e
  end.

(** [client.models.generate_content(...)]: one request to the provider;
    the SDK then parses the JSON into the pydantic object. *)
Definition generate_content (env : Env) (client : option string) (req : Request)
    : M World Response :=
  emit (EvGenerateContent client req) ;;
  match provider env client req with
  | Ret body =>
      ret (mkResponse (body ≫= model_validate (config_response_schema req)))
  | Raise e => raise e
  end.

(** ** gemini_logic.py *)

Module gemini_logic.

Definition Mood : list string :=
  ["Joyful"; "Happy"; "Calm"; "Neutral"; "Anxious"; "Stressed"; "Sad";
   "Angry"; "Frustrated"].

Definition Recommendation : Ty :=
  TModel [("title", (TStr, None)); ("reason", (TStr, None))].

Definition UserAnalysis : Ty :=
  TModel [
    ("overall_mood", (TLiteral Mood, None));
    ("mood_summary", (TStr, None));
    ("health_tip_1", (TStr, None));
    ("health_tip_2", (TStr, None));
    ("movie_recommendations", (TList Recommendation, Some (PyList [])));
    ("book_recommendations", (TList Recommendation, Some (PyList [])))
  ].

(** Step 2 of [analyze_user_input]: the value of
    [recommendation_instructions] after the [rstrip]. *)
Definition recommendation_instructions (num_movies num_books : Z) : string :=
  let r0 := "" in
  let r1 :=
    if 0 <? num_movies
    then r0 +:+ "and suggest exactly " +:+ format_int num_movies +:+ " relevant movies,"
    else r0 in
  let r2 :=
    if 0 <? num_books
    then r1 +:+ "and suggest exactly " +:+ format_int num_books +:+ " relevant books,"
    else r1 in
  rstrip r2 ", ".

Definition instruction_head : string :=
  "You are an empathetic wellness assistant. Your task is to analyze the user's "
  +:+ "text, determine their mood, provide two helpful health and wellness tips tailored "
  +:+ "to that mood".

Definition instruction_tail : string :=
  "You must return the entire response in a single JSON object that strictly adheres "
  +:+ "to the provided schema. If a recommendation type was not requested (count is 0), "
  +:+ "return an empty list for that field.".

(** Step 3: the system instruction. *)
Definition system_instruction (num_movies num_books : Z) : string :=
  instruction_head
  +:+ " " +:+ recommendation_instructions num_movies num_books +:+ ". "
  +:+ instruction_tail.

Definition prompt (user_text : string) : string :=
  "Analyze my current situation and provide advice based on this: '"
  +:+ user_text +:+ "'".

Definition analyze_user_input (env : Env) (user_text : string)
    (num_movies num_books : Z) (api_key : option string)
    : M World (gmap string PyVal) :=
  (* 1. Initialize Client *)
  started <-
    try_except
      (client <- Client env api_key ;; ret (inr client))
      isinstance_Exception
      (λ e, ret (inl ({[ "error" := PyStr
          ("API Client Error. Ensure GEMINI_API_KEY is set. Details: "
           +:+ exn_str e) ]} : gmap string PyVal))) ;;
  match started with
  | inl failure => ret failure
  | inr client =>
      (* 2, 3. Instructions and prompt *)
      let system_instruction := system_instruction num_movies num_books in
      let prompt := prompt user_text in
      (* 4. Generate Content *)
      try_except
        (response <-
           generate_content env client
             (mkRequest "gemini-2.5-flash" prompt system_instruction
                "application/json" UserAnalysis) ;;
         data <- lift (model_dump (parsed response)) ;;
         ret ({[ "success" := PyBool true; "data" := data ]} : gmap string PyVal))
        isinstance_Exception
        (λ e, ret ({[ "error" := PyStr
            ("Gemini API Call Failed. Details: " +:+ exn_str e) ]}
            : gmap string PyVal))
  end.

End gemini_logic.

Export gemini_logic.

(** ** app.py *)

Module app.

(** Session state as initialised at the top of the script. *)
Definition initial_session_state : SessionState :=
  mkSessionState [] PyNone "" false 0 false 0.

(** The button callback. *)
Definition generate_report (env : Env) : M World unit :=
  user_text <- gets (λ w, user_text (session_state w)) ;;
  if negb (truthy (PyStr user_text)) then
    st_error (PyStr
      "Please describe your current feelings or situation before generating a report.") ;;
    set_report_data PyNone
  else
    found <-
      try_except
        (gemini_key <- secrets_getitem env "GEMINI_API_KEY" ;;
         ret (Some gemini_key))
        isinstance_KeyError
        (λ _,
           st_error (PyStr
             "❌ API Key Error: GEMINI_API_KEY not found in Streamlit Secrets. Please configure your secrets.") ;;
           set_report_data PyNone ;;
           ret None) ;;
    match found with
    | None => ret tt
    | Some gemini_key =>
        movie_toggle <- gets (λ w, movie_toggle (session_state w)) ;;
        num_movies_slider <- gets (λ w, num_movies_slider (session_state w)) ;;
        book_toggle <- gets (λ w, book_toggle (session_state w)) ;;
        num_books_slider <- gets (λ w, num_books_slider (session_state w)) ;;
        let num_movies := Z.b2z movie_toggle * num_movies_slider in
        let num_books := Z.b2z book_toggle * num_books_slider in
        emit (EvSpinner
          "🧠 Analyzing your mood and generating personalized advice...") ;;
        result <-
          analyze_user_input env user_text num_movies num_books
            (Some gemini_key) ;;
        if truthy (dict_get result "error") then
          body <- lift (dict_getitem result "error") ;;
          st_error body ;;
          set_report_data PyNone
        else
          data <- lift (dict_getitem result "data") ;;
          set_report_data data ;;
          now <- ret (Timestamp_now env) ;;
          mood <- lift (getitem data "overall_mood") ;;
          summary <- lift (getitem data "mood_summary") ;;
          movie_recommendations <- lift (getitem data "movie_recommendations") ;;
          movies <- lift (len movie_recommendations) ;;
          book_recommendations <- lift (getitem data "book_recommendations") ;;
          books <- lift (len book_recommendations) ;;
          history_append (mkHistoryEntry now mood summary movies books)
    end.

Definition mood_score_map : gmap string Z :=
  {[ "Joyful" := 5; "Happy" := 4; "Calm" := 3; "Neutral" := 3;
     "Anxious" := 2; "Stressed" := 2; "Sad" := 1; "Angry" := 1;
     "Frustrated" := 1 ]}.

(** [series.map(d)] on one cell: the value under the cell's key, a
    missing value when the key is absent; a cell that cannot be hashed
    raises. *)
Definition map_cell (d : gmap string Z) (cell : PyVal) : Result (option Z) :=
  match cell with
  | PyStr s => Ret (d !! s)
  | PyList _ | PyDict _ => Raise (mkExn TypeError "unhashable type")
  | _ => Ret None
  end.

(** [series.map(d)] on a column. *)
Fixpoint series_map (d : gmap string Z) (column : list PyVal)
    : Result (list (option Z)) :=
  match column with
  | [] => Ret []
  | cell :: rest =>
      match map_cell d cell with
      | Raise e => Raise e
      | Ret score =>
          match series_map d rest with
          | Raise e => Raise e
          | Ret scores => Ret (score :: scores)
          end
      end
  end.

(** The [score] column of [df_history]. *)
Definition score_column (h : list HistoryEntry) : Result (list (option Z)) :=
  series_map mood_score_map (mood <$> h).

(** The sidebar.  The [day] column is a rendering of the timestamp, so the
    rows of the chart pair each timestamp with its score. *)
Definition display_history : M World unit :=
  h <- gets (λ w, history (session_state w)) ;;
  if bool_decide (h = []) then
    emit (EvSidebarInfo "Submit your first entry to see your mood history!")
  else
    score <- lift (score_column h) ;;
    emit (EvLineChart (zip (timestamp <$> h) score)).

End app.

Export app.

(** ** Runs of the interface *)

(** What the user has entered in the widgets when the button is pressed. *)
Record Widgets := mkWidgets {
  w_user_text : string;
  w_movie_toggle : bool;
  w_num_movies_slider : Z;
  w_book_toggle : bool;
  w_num_books_slider : Z;
}.

Definition set_widgets (i : Widgets) (w : World) : World :=
  mkWorld
    (mkSessionState (history (session_state w)) (report_data (session_state w))
       (w_user_text i) (w_movie_toggle i) (w_num_movies_slider i)
       (w_book_toggle i) (w_num_books_slider i))
    (events w).

(** One press of the button: Streamlit stores the widget values, then runs
    the callback. *)
Definition submit (a : Env * Widgets) (w : World) : Result unit * World :=
  generate_report (fst a) (set_widgets (snd a) w).

(** A sequence of presses, each with the collaborators of its moment.  A
    callback that raised would leave the state it reached. *)
Definition run (attempts : list (Env * Widgets)) (w : World) : World :=
  foldl (λ w a, snd (submit a w)) w attempts.

(** Requests sent to the model provider, and their number in a trace. *)
Definition is_model_call (ev : Event) : bool :=
  match ev with EvGenerateContent _ _ => true | _ => false end.

Definition model_calls (evs : list Event) : nat :=
  length (List.filter is_model_call evs).

(** ** Vocabulary of the statements *)

(** The world after more events. *)
Definition add_events (w : World) (evs : list Event) : World :=
  mkWorld (session_state w) (events w ++ evs).

(** The world after a callback: the report slot holds [report], the
    history has grown by [entries], and [evs] happened. *)
Definition settle (w : World) (report : PyVal) (entries : list HistoryEntry)
    (evs : list Event) : World :=
  let s := session_state w in
  mkWorld
    (mkSessionState (history s ++ entries) report (user_text s) (movie_toggle s)
       (num_movies_slider s) (book_toggle s) (num_books_slider s))
    (events w ++ evs).

(** The request [analyze_user_input] builds from its arguments. *)
Definition request_for (user_text : string) (num_movies num_books : Z) : Request :=
  mkRequest "gemini-2.5-flash" (prompt user_text)
    (system_instruction num_movies num_books) "application/json" UserAnalysis.

(** The counts [generate_report] computes from the widgets. *)
Definition requested_movies (i : Widgets) : Z :=
  Z.b2z (w_movie_toggle i) * w_num_movies_slider i.

Definition requested_books (i : Widgets) : Z :=
  Z.b2z (w_book_toggle i) * w_num_books_slider i.

(** The two clauses of the instruction, without their separator. *)
Definition movie_clause (n : Z) : string :=
  "and suggest exactly " +:+ format_int n +:+ " relevant movies".

Definition book_clause (n : Z) : string :=
  "and suggest exactly " +:+ format_int n +:+ " relevant books".

(** The instruction up to the full stop that precedes the closing
    sentence. *)
Definition before_closing (num_movies num_books : Z) : string :=
  instruction_head +:+ " " +:+ recommendation_instructions num_movies num_books.

(** A text ends in a separator when its last character is one of those the
    program strips, a comma or a space. *)
Definition dangling_separator (s : string) : bool :=
  match last_char s with
  | Some c => char_in c ", "
  | None => false
  end.


(** The messages shown to the user. *)
Definition validation_message : string :=
  "Please describe your current feelings or situation before generating a report.".

Definition credentials_message : string :=
  "❌ API Key Error: GEMINI_API_KEY not found in Streamlit Secrets. Please configure your secrets.".

Definition client_error (detail : string) : string :=
  "API Client Error. Ensure GEMINI_API_KEY is set. Details: " +:+ detail.

Definition call_failed (detail : string) : string :=
  "Gemini API Call Failed. Details: " +:+ detail.

Definition no_parsed_object : string :=
  "'NoneType' object has no attribute 'model_dump'".

(** The outcome of one attempt, read off the collaborators: the
    discriminated result the specification names. *)
Inductive Outcome :=
  | Success (data : PyVal)
  | ValidationError
  | CredentialsError
  | ProviderError (message : string).

Definition outcome (env : Env) (i : Widgets) : Outcome :=
  if bool_decide (w_user_text i = "") then ValidationError
  else
    match secrets env !! "GEMINI_API_KEY" with
    | None => CredentialsError
    | Some key =>
        match genai_Client env (Some key) with
        | Some e => CredentialsError
        | None =>
            match provider env (Some key)
                    (request_for (w_user_text i) (requested_movies i)
                       (requested_books i)) with
            | Raise e => ProviderError (call_failed (exn_str e))
            | Ret body =>
                match body ≫= model_validate UserAnalysis with
                | None => ProviderError (call_failed no_parsed_object)
                | Some data => Success data
                end
            end
        end
    end.


(** The field [k] of a dumped model, and the length of a list value. *)
Definition field (data : PyVal) (k : string) : PyVal :=
  match data with
  | PyDict d => dict_get d k
  | _ => PyNone
  end.

Definition count (v : PyVal) : Z :=
  match v with
  | PyList l => Z.of_nat (length l)
  | _ => 0
  end.

(** The history entry derived from a result at time [now]. *)
Definition entry_of (now : Z) (data : PyVal) : HistoryEntry :=
  mkHistoryEntry now (field data "overall_mood") (field data "mood_summary")
    (count (field data "movie_recommendations"))
    (count (field data "book_recommendations")).

(** The entry an attempt contributes to the history, if any. *)
Definition contribution (a : Env * Widgets) : option HistoryEntry :=
  match outcome (fst a) (snd a) with
  | Success data => Some (entry_of (Timestamp_now (fst a)) data)
  | _ => None
  end.

(** The report slot an attempt leaves. *)
Definition report_after (a : Env * Widgets) : PyVal :=
  match outcome (fst a) (snd a) with
  | Success data => data
  | _ => PyNone
  end.

(** The six fields of a dumped [UserAnalysis]. *)
Definition UserAnalysis_fields : list string :=
  ["overall_mood"; "mood_summary"; "health_tip_1"; "health_tip_2";
   "movie_recommendations"; "book_recommendations"].

(** The counts and the request of the callback, read from the session. *)
Definition session_movies (w : World) : Z :=
  Z.b2z (movie_toggle (session_state w)) * num_movies_slider (session_state w).

Definition session_books (w : World) : Z :=
  Z.b2z (book_toggle (session_state w)) * num_books_slider (session_state w).

Definition session_request (w : World) : Request :=
  request_for (user_text (session_state w)) (session_movies w) (session_books w).

Definition spinner_text : string :=
  "🧠 Analyzing your mood and generating personalized advice...".




(** *** Concrete collaborators and inputs used in the examples *)

(** An answer with the four required fields and no recommendation list. *)
Definition happy_body : gmap string PyVal :=
  {[ "overall_mood" := PyStr "Happy";
     "mood_summary" := PyStr "Good news at work.";
     "health_tip_1" := PyStr "Take a walk.";
     "health_tip_2" := PyStr "Sleep well." ]}.

(** The secret is configured, the client is built, and the provider
    answers [body] to every request, at time 1000. *)
Definition env_answering (body : option PyVal) : Env :=
  mkEnv {[ "GEMINI_API_KEY" := "key" ]} (λ _, None) (λ _ _, Ret body) 1000.

(** No secret is configured. *)
Definition env_without_secret : Env :=
  mkEnv ∅ (λ _, None) (λ _ _, Ret (Some (PyDict happy_body))) 1000.


Definition fresh_world : World := mkWorld initial_session_state [].


Definition promotion : Widgets :=
  mkWidgets "I just got a promotion" false 0 false 0.

Definition empty_input : Widgets := mkWidgets "" true 2 false 0.

(** ** The report panel of app.py *)

(** A piece of an f-string: literal text, or a value to be formatted. *)
Inductive Frag :=
  | FLit (s : string)
  | FVal (v : PyVal).

(** What is put on the page, in order.  Elements placed in a column of the
    last [st.columns] carry the column's index; an expander holds the
    elements written inside its [with] block. *)
Inductive Ui :=
  | UiMarkdown (body : string)
  | UiColumns (n : nat)
  | UiMetric (column : nat) (label : string) (value : PyVal)
  | UiInfo (column : nat) (body : list Frag)
  | UiDivider
  | UiSuccess (body : list Frag)
  | UiExpander (column : nat) (label : string) (body : list Ui)
  | UiWrite (body : list Frag)
  | UiCaption (body : PyVal).

Definition show (u : Ui) : M (list Ui) unit :=
  modify (λ page, page ++ [u]).

(** [with column.expander(label): body]: the body writes into the
    expander; an exception of the body leaves what it wrote and goes on. *)
Definition in_expander (column : nat) (label : string)
    (body : M (list Ui) unit) : M (list Ui) unit := λ page,
  match body [] with
  | (r, inner) => (r, page ++ [UiExpander column label inner])
  end.

(** The elements a [for] loop goes through: the items of a list, the
    characters of a string, the keys of a dictionary. *)
Definition iterate (v : PyVal) : Result (list PyVal) :=
  match v with
  | PyList l => Ret l
  | PyStr s => Ret ((λ c, PyStr (String c EmptyString)) <$> String.list_ascii_of_string s)
  | PyDict m => Ret (PyStr <$> (map_to_list m).*1)
  | _ => Raise (mkExn TypeError "object is not iterable")
  end.

(** [for x in items: body x] *)
Fixpoint for_each {Σ} (items : list PyVal) (body : PyVal → M Σ unit) : M Σ unit :=
  match items with
  | [] => ret tt
  | x :: rest => body x ;; for_each rest body
  end.

Module report.

(** One recommendation inside an expander. *)
Definition show_recommendation (rec : PyVal) : M (list Ui) unit :=
  title <- lift (getitem rec "title") ;;
  show (UiWrite [FLit "**"; FVal title; FLit "**"]) ;;
  reason <- lift (getitem rec "reason") ;;
  show (UiCaption reason).

Definition display_report (data : PyVal) : M (list Ui) unit :=
  show (UiMarkdown "### ✨ Personalized Wellness Report") ;;
  (* 1. Mood Analysis *)
  show (UiColumns 2) ;;
  overall_mood <- lift (getitem data "overall_mood") ;;
  show (UiMetric 0 "Primary Mood Detected" overall_mood) ;;
  mood_summary <- lift (getitem data "mood_summary") ;;
  show (UiInfo 1 [FLit "**Summary:** "; FVal mood_summary]) ;;
  show UiDivider ;;
  (* 2. Health & Wellness Tips *)
  show (UiMarkdown "### 🌿 Healthy Living Tips") ;;
  health_tip_1 <- lift (getitem data "health_tip_1") ;;
  show (UiSuccess [FLit "1. "; FVal health_tip_1]) ;;
  health_tip_2 <- lift (getitem data "health_tip_2") ;;
  show (UiSuccess [FLit "2. "; FVal health_tip_2]) ;;
  (* 3. Media Recommendations *)
  movies <- lift (getitem data "movie_recommendations") ;;
  wanted <-
    (if truthy movies then ret true
     else books <- lift (getitem data "book_recommendations") ;;
          ret (truthy books)) ;;
  if wanted : bool then
    show UiDivider ;;
    show (UiMarkdown "### 🎬 Media Recommendations") ;;
    show (UiColumns 2) ;;
    (* Movies *)
    movies <- lift (getitem data "movie_recommendations") ;;
    (if truthy movies then
       counted <- lift (getitem data "movie_recommendations") ;;
       n <- lift (len counted) ;;
       in_expander 0 ("Movies (" +:+ format_int n +:+ ")")
         (listed <- lift (getitem data "movie_recommendations") ;;
          items <- lift (iterate listed) ;;
          for_each items show_recommendation)
     else ret tt) ;;
    (* Books *)
    books <- lift (getitem data "book_recommendations") ;;
    (if truthy books then
       counted <- lift (getitem data "book_recommendations") ;;
       n <- lift (len counted) ;;
       in_expander 1 ("Books (" +:+ format_int n +:+ ")")
         (listed <- lift (getitem data "book_recommendations") ;;
          items <- lift (iterate listed) ;;
          for_each items show_recommendation)
     else ret tt)
  else ret tt.

(** 4. Report Output Area of the script. *)
Definition report_area (s : SessionState) : M (list Ui) unit :=
  if truthy (report_data s) then
    show (UiMarkdown "---") ;;
    display_report (report_data s)
  else ret tt.

End report.

Export report.

(** *** Vocabulary of the statements on the report panel *)

(** A dumped [Recommendation]. *)
Definition recommendation (title reason : string) : PyVal :=
  PyDict (<["title" := PyStr title]> (<["reason" := PyStr reason]> ∅)).

(** A value that validation against [UserAnalysis] produces. *)
Definition valid_analysis (data : PyVal) : Prop :=
  ∃ j, model_validate UserAnalysis j = Some data.

(** The items of a list value. *)
Definition items_of (v : PyVal) : list PyVal :=
  match v with
  | PyList l => l
  | _ => []
  end.

(** Title and reason of each item, in the order of the list. *)
Definition recommendation_rows (items : list PyVal) : list Ui :=
  items ≫= λ rec,
    [UiWrite [FLit "**"; FVal (field rec "title"); FLit "**"];
     UiCaption (field rec "reason")].

(** The expander of one category: none for an empty list. *)
Definition media_group (column : nat) (kind : string) (items : list PyVal)
    : list Ui :=
  match items with
  | [] => []
  | _ =>
      [UiExpander column
         (kind +:+ " (" +:+ format_int (Z.of_nat (length items)) +:+ ")")
         (recommendation_rows items)]
  end.

(** The media section: none when both lists are empty. *)
Definition media_section (mv bk : list PyVal) : list Ui :=
  match mv, bk with
  | [], [] => []
  | _, _ =>
      [UiDivider; UiMarkdown "### 🎬 Media Recommendations"; UiColumns 2]
      ++ media_group 0 "Movies" mv ++ media_group 1 "Books" bk
  end.

(** The part of the panel every report has. *)
Definition report_head (data : PyVal) : list Ui :=
  [UiMarkdown "### ✨ Personalized Wellness Report";
   UiColumns 2;
   UiMetric 0 "Primary Mood Detected" (field data "overall_mood");
   UiInfo 1 [FLit "**Summary:** "; FVal (field data "mood_summary")];
   UiDivider;
   UiMarkdown "### 🌿 Healthy Living Tips";
   UiSuccess [FLit "1. "; FVal (field data "health_tip_1")];
   UiSuccess [FLit "2. "; FVal (field data "health_tip_2")]].

(** The report slot holds nothing or a validated result. *)
Definition report_ok (v : PyVal) : Prop := v = PyNone ∨ valid_analysis v.

(** Every entry of the history holds a mood of the enumeration and counts
    that are not negative. *)
Definition history_ok (h : list HistoryEntry) : Prop :=
  Forall (λ e, (∃ s, mood e = PyStr s ∧ s ∈ Mood) ∧ 0 ≤ movies e ∧ 0 ≤ books e) h.

(** *** Further values used in the examples *)

Definition film : PyVal := recommendation "Paddington" "Gentle and funny.".

Definition cinema_body : gmap string PyVal :=
  <["movie_recommendations" := PyList [film]]> happy_body.

Definition cinema_data : PyVal :=
  PyDict (<["book_recommendations" := PyList []]> cinema_body).

Definition required_fields : list string :=
  ["overall_mood"; "mood_summary"; "health_tip_1"; "health_tip_2"].

Definition body_without_tip : gmap string PyVal := delete "health_tip_2" happy_body.

Definition ecstatic_body : gmap string PyVal :=
  <["overall_mood" := PyStr "Ecstatic"]> happy_body.

Definition body_with_bare_title : gmap string PyVal :=
  <["movie_recommendations" :=
      PyList [film; PyDict {[ "title" := PyStr "Up" ]}]]> happy_body.


(** * Properties *)

(** ** Strings and the composed instruction *)

Section strings.
Implicit Types s t r chars : string.

Lemma app_cons a s t : String a s +:+ t = String a (s +:+ t).
Proof. reflexivity. Qed.

Lemma app_assoc_str s t r : (s +:+ t) +:+ r = s +:+ (t +:+ r).
Proof. induction s as [|a s IH]; [done|]. by rewrite !app_cons, IH. Qed.

Lemma app_nonempty_r s r : r ≠ "" → s +:+ r ≠ "".
Proof. destruct s; [done|]. by rewrite app_cons. Qed.

Lemma rstrip_app_keep s t chars :
  rstrip t chars ≠ "" → rstrip (s +:+ t) chars = s +:+ rstrip t chars.
Proof.
  intros Hne. induction s as [|a s IH]; [done|].
  rewrite !app_cons. cbn [rstrip]. rewrite IH.
  destruct (s +:+ rstrip t chars) eqn:E; [|done].
  by apply app_nonempty_r in E.
Qed.

Lemma last_char_app s t : t ≠ "" → last_char (s +:+ t) = last_char t.
Proof.
  intros Hne. induction s as [|a s IH]; [done|].
  rewrite app_cons. cbn [last_char]. rewrite IH.
  destruct (s +:+ t) eqn:E; [|done]. by apply app_nonempty_r in E.
Qed.

Lemma rstrip_app_tail s t chars kept :
  rstrip t chars = kept → kept ≠ "" → rstrip (s +:+ t) chars = s +:+ kept.
Proof. intros <- ?. by apply rstrip_app_keep. Qed.
End strings.

Lemma recommendation_instructions_none n m :
  ¬ 0 < n → ¬ 0 < m → recommendation_instructions n m = "".
Proof.
  intros Hn Hm. unfold recommendation_instructions.
  rewrite !(proj2 (Z.ltb_nlt 0 _)) by done. done.
Qed.

Lemma recommendation_instructions_movies n m :
  0 < n → ¬ 0 < m → recommendation_instructions n m = movie_clause n.
Proof.
  intros Hn Hm. unfold recommendation_instructions, movie_clause.
  rewrite (proj2 (Z.ltb_lt 0 n)), (proj2 (Z.ltb_nlt 0 m)) by done.
  change ("" +:+ ?x) with x.
  apply rstrip_app_tail; [|by apply app_nonempty_r].
  by apply rstrip_app_tail.
Qed.

Lemma recommendation_instructions_books n m :
  ¬ 0 < n → 0 < m → recommendation_instructions n m = book_clause m.
Proof.
  intros Hn Hm. unfold recommendation_instructions, book_clause.
  rewrite (proj2 (Z.ltb_nlt 0 n)), (proj2 (Z.ltb_lt 0 m)) by done.
  change ("" +:+ ?x) with x.
  apply rstrip_app_tail; [|by apply app_nonempty_r].
  by apply rstrip_app_tail.
Qed.

Lemma recommendation_instructions_both n m :
  0 < n → 0 < m →
  recommendation_instructions n m = movie_clause n +:+ "," +:+ book_clause m.
Proof.
  intros Hn Hm. unfold recommendation_instructions, movie_clause, book_clause.
  rewrite !(proj2 (Z.ltb_lt 0 _)) by done.
  change ("" +:+ ?x) with x.
  rewrite !app_assoc_str.
  change (" relevant movies" +:+ "," +:+ ?x) with (" relevant movies," +:+ x).
  do 4 (apply rstrip_app_tail; [|by repeat apply app_nonempty_r]).
  by apply rstrip_app_tail.
Qed.

Lemma system_instruction_split n m :
  system_instruction n m = before_closing n m +:+ ". " +:+ instruction_tail.
Proof. unfold system_instruction, before_closing. by rewrite !app_assoc_str. Qed.

Lemma clause_present_no_dangling_separator n m :
  0 < n ∨ 0 < m → dangling_separator (before_closing n m) = false.
Proof.
  intros H. unfold dangling_separator, before_closing.
  destruct (decide (0 < n)), (decide (0 < m)); [| | |lia].
  - rewrite recommendation_instructions_both by done.
    unfold movie_clause, book_clause. rewrite <- !app_assoc_str.
    by rewrite last_char_app.
  - rewrite recommendation_instructions_movies by done.
    unfold movie_clause. rewrite <- !app_assoc_str. by rewrite last_char_app.
  - rewrite recommendation_instructions_books by done.
    unfold book_clause. rewrite <- !app_assoc_str. by rewrite last_char_app.
Qed.


(** ** Validation against the schema *)

Lemma model_validate_TModel_nil o :
  model_validate (TModel []) (PyDict o) = Some (PyDict ∅).
Proof. reflexivity. Qed.

Lemma model_validate_TModel_cons k t d fs o r :
  model_validate (TModel ((k, (t, d)) :: fs)) (PyDict o) = Some r →
  ∃ v m,
    match o !! k with Some j => model_validate t j | None => d end = Some v
    ∧ model_validate (TModel fs) (PyDict o) = Some (PyDict m)
    ∧ r = PyDict (<[k:=v]> m).
Proof.
  cbn [model_validate].
  destruct (match o !! k with Some j => model_validate t j | None => d end)
    as [v|]; [|discriminate].
  cbn [mbind option_bind].
  match goal with |- context [fmap _ (mbind _ ?x)] => destruct x as [m|] end;
    [|discriminate].
  cbn [mbind option_bind fmap option_fmap option_map].
  intros [= <-]. by exists v, m.
Qed.

Lemma model_validate_TStr j v :
  model_validate TStr j = Some v → ∃ s, j = PyStr s ∧ v = PyStr s.
Proof. destruct j; try discriminate. intros [= <-]. eauto. Qed.

Lemma model_validate_TLiteral cs j v :
  model_validate (TLiteral cs) j = Some v → ∃ s, j = PyStr s ∧ v = PyStr s ∧ s ∈ cs.
Proof.
  destruct j; try discriminate. cbn [model_validate].
  case_bool_decide; [|discriminate]. intros [= <-]. eauto.
Qed.

Lemma model_validate_TList e j v :
  model_validate (TList e) j = Some v →
  ∃ l items, j = PyList l ∧ v = PyList items ∧ mapM (model_validate e) l = Some items.
Proof.
  destruct j; try discriminate. cbn [model_validate].
  destruct (mapM _ _) as [items|] eqn:E; [|discriminate].
  intros [= <-]. by exists l, items.
Qed.

Lemma required_field (o : gmap string PyVal) k t v :
  match o !! k with Some j => model_validate t j | None => None end = Some v →
  ∃ j, o !! k = Some j ∧ model_validate t j = Some v.
Proof. destruct (o !! k); [eauto|discriminate]. Qed.

Lemma validate_UserAnalysis_shape j d :
  model_validate UserAnalysis j = Some d →
  ∃ o mood summary tip1 tip2 mv bk,
    j = PyDict o ∧
    d = PyDict (<["overall_mood" := PyStr mood]> (<["mood_summary" := PyStr summary]>
          (<["health_tip_1" := PyStr tip1]> (<["health_tip_2" := PyStr tip2]>
          (<["movie_recommendations" := PyList mv]> (<["book_recommendations" := PyList bk]> ∅)))))) ∧
    mood ∈ Mood ∧
    o !! "overall_mood" = Some (PyStr mood) ∧
    o !! "mood_summary" = Some (PyStr summary) ∧
    o !! "health_tip_1" = Some (PyStr tip1) ∧
    o !! "health_tip_2" = Some (PyStr tip2) ∧
    match o !! "movie_recommendations" with
    | Some j => model_validate (TList Recommendation) j | None => Some (PyList [])
    end = Some (PyList mv) ∧
    match o !! "book_recommendations" with
    | Some j => model_validate (TList Recommendation) j | None => Some (PyList [])
    end = Some (PyList bk).
Proof.
  intros H. destruct j as [| | | | |o]; try discriminate.
  unfold UserAnalysis in H.
  apply model_validate_TModel_cons in H as (v1 & m1 & F1 & H & ->).
  apply model_validate_TModel_cons in H as (v2 & m2 & F2 & H & [= ->]).
  apply model_validate_TModel_cons in H as (v3 & m3 & F3 & H & [= ->]).
  apply model_validate_TModel_cons in H as (v4 & m4 & F4 & H & [= ->]).
  apply model_validate_TModel_cons in H as (v5 & m5 & F5 & H & [= ->]).
  apply model_validate_TModel_cons in H as (v6 & m6 & F6 & H & [= ->]).
  rewrite model_validate_TModel_nil in H. injection H as <-.
  apply required_field in F1 as (j1 & L1 & (mood & -> & -> & Hmood)%model_validate_TLiteral).
  apply required_field in F2 as (j2 & L2 & (summary & -> & ->)%model_validate_TStr).
  apply required_field in F3 as (j3 & L3 & (tip1 & -> & ->)%model_validate_TStr).
  apply required_field in F4 as (j4 & L4 & (tip2 & -> & ->)%model_validate_TStr).
  assert (∃ mv, v5 = PyList mv) as [mv ->].
  { destruct (o !! "movie_recommendations").
    - apply model_validate_TList in F5 as (? & ? & _ & -> & _); eauto.
    - injection F5 as <-; eauto. }
  assert (∃ bk, v6 = PyList bk) as [bk ->].
  { destruct (o !! "book_recommendations").
    - apply model_validate_TList in F6 as (? & ? & _ & -> & _); eauto.
    - injection F6 as <-; eauto. }
  exists o, mood, summary, tip1, tip2, mv, bk. done.
Qed.

(** ** The orchestrator, case by case *)

Ltac run_monad :=
  cbv [bind ret raise gets modify lift try_except emit st_error
       set_report_data history_append isinstance_Exception
       Client generate_content secrets_getitem];
  cbn [session_state events config_response_schema parsed
       history report_data user_text movie_toggle num_movies_slider
       book_toggle num_books_slider fst snd].

Lemma analyze_client_refused env ut nm nb key e w :
  genai_Client env key = Some e →
  analyze_user_input env ut nm nb key w =
    (Ret {[ "error" := PyStr (client_error (exn_str e)) ]},
     add_events w [EvClient key]).
Proof. intros H. unfold analyze_user_input. run_monad. rewrite H. done. Qed.

Lemma analyze_provider_raises env ut nm nb key e w :
  genai_Client env key = None →
  provider env key (request_for ut nm nb) = Raise e →
  analyze_user_input env ut nm nb key w =
    (Ret {[ "error" := PyStr (call_failed (exn_str e)) ]},
     add_events w [EvClient key; EvGenerateContent key (request_for ut nm nb)]).
Proof.
  intros H1 H2. unfold analyze_user_input. run_monad. rewrite H1. run_monad.
  unfold request_for in H2. rewrite H2. unfold add_events.
  by rewrite <- app_assoc.
Qed.

Lemma analyze_provider_invalid env ut nm nb key body w :
  genai_Client env key = None →
  provider env key (request_for ut nm nb) = Ret body →
  body ≫= model_validate UserAnalysis = None →
  analyze_user_input env ut nm nb key w =
    (Ret {[ "error" := PyStr (call_failed no_parsed_object) ]},
     add_events w [EvClient key; EvGenerateContent key (request_for ut nm nb)]).
Proof.
  intros H1 H2 H3. unfold analyze_user_input. run_monad. rewrite H1. run_monad.
  unfold request_for in H2. rewrite H2. run_monad. rewrite H3.
  unfold add_events. by rewrite <- app_assoc.
Qed.

Lemma analyze_success env ut nm nb key body data w :
  genai_Client env key = None →
  provider env key (request_for ut nm nb) = Ret body →
  body ≫= model_validate UserAnalysis = Some data →
  analyze_user_input env ut nm nb key w =
    (Ret {[ "success" := PyBool true; "data" := data ]},
     add_events w [EvClient key; EvGenerateContent key (request_for ut nm nb)]).
Proof.
  intros H1 H2 H3. unfold analyze_user_input. run_monad. rewrite H1. run_monad.
  unfold request_for in H2. rewrite H2. run_monad. rewrite H3.
  unfold add_events. by rewrite <- app_assoc.
Qed.


(** ** The callback, case by case *)

Lemma truthy_nonempty a s x : truthy (PyStr (String a s +:+ x)) = true.
Proof. done. Qed.

Lemma generate_report_empty env w :
  user_text (session_state w) = "" →
  generate_report env w =
    (Ret tt, settle w PyNone [] [EvError (PyStr validation_message)]).
Proof.
  intros H. unfold generate_report. run_monad. rewrite H.
  cbn [truthy negb]. rewrite bool_decide_eq_true_2 by done. cbn [negb].
  unfold settle. by rewrite app_nil_r.
Qed.

Lemma generate_report_no_secret env w :
  user_text (session_state w) ≠ "" →
  secrets env !! "GEMINI_API_KEY" = None →
  generate_report env w =
    (Ret tt, settle w PyNone []
       [EvSecrets "GEMINI_API_KEY"; EvError (PyStr credentials_message)]).
Proof.
  intros H1 H2. unfold generate_report. run_monad.
  cbn [truthy negb]. rewrite bool_decide_eq_false_2 by done. cbn [negb].
  rewrite H2. run_monad. cbn [isinstance_KeyError exn_class].
  unfold settle. by rewrite app_nil_r, <- app_assoc.
Qed.

Lemma error_dict_truthy a s x :
  truthy (dict_get {[ "error" := PyStr (String a s +:+ x) ]} "error") = true.
Proof. unfold dict_get. by rewrite lookup_singleton_eq. Qed.

Lemma success_dict_not_error data :
  truthy (dict_get {[ "success" := PyBool true; "data" := data ]} "error") = false.
Proof.
  unfold dict_get. rewrite lookup_insert_ne, lookup_singleton_ne by done. done.
Qed.

Ltac enter_report H1 H2 :=
  unfold generate_report; run_monad;
  cbn [truthy negb]; rewrite bool_decide_eq_false_2 by done; cbn [negb];
  rewrite H2; run_monad.

Lemma generate_report_client_refused env w key e :
  user_text (session_state w) ≠ "" →
  secrets env !! "GEMINI_API_KEY" = Some key →
  genai_Client env (Some key) = Some e →
  generate_report env w =
    (Ret tt, settle w PyNone []
       [EvSecrets "GEMINI_API_KEY";
        EvSpinner spinner_text;
        EvClient (Some key);
        EvError (PyStr (client_error (exn_str e)))]).
Proof.
  intros H1 H2 H3. enter_report H1 H2.
  rewrite (analyze_client_refused _ _ _ _ _ e) by done.
  unfold client_error. rewrite error_dict_truthy.
  unfold dict_getitem. rewrite lookup_singleton_eq. run_monad.
  unfold settle. cbn [add_events session_state events].
  by rewrite app_nil_r, <- !app_assoc.
Qed.


Lemma generate_report_provider_raises env w key e :
  user_text (session_state w) ≠ "" →
  secrets env !! "GEMINI_API_KEY" = Some key →
  genai_Client env (Some key) = None →
  provider env (Some key) (session_request w) = Raise e →
  generate_report env w =
    (Ret tt, settle w PyNone []
       [EvSecrets "GEMINI_API_KEY"; EvSpinner spinner_text; EvClient (Some key);
        EvGenerateContent (Some key) (session_request w);
        EvError (PyStr (call_failed (exn_str e)))]).
Proof.
  intros H1 H2 H3 H4. enter_report H1 H2.
  rewrite (analyze_provider_raises _ _ _ _ _ e) by done.
  unfold call_failed. rewrite error_dict_truthy.
  unfold dict_getitem. rewrite lookup_singleton_eq. run_monad.
  unfold settle. cbn [add_events session_state events].
  by rewrite app_nil_r, <- !app_assoc.
Qed.

Lemma generate_report_provider_invalid env w key body :
  user_text (session_state w) ≠ "" →
  secrets env !! "GEMINI_API_KEY" = Some key →
  genai_Client env (Some key) = None →
  provider env (Some key) (session_request w) = Ret body →
  body ≫= model_validate UserAnalysis = None →
  generate_report env w =
    (Ret tt, settle w PyNone []
       [EvSecrets "GEMINI_API_KEY"; EvSpinner spinner_text; EvClient (Some key);
        EvGenerateContent (Some key) (session_request w);
        EvError (PyStr (call_failed no_parsed_object))]).
Proof.
  intros H1 H2 H3 H4 H5. enter_report H1 H2.
  rewrite (analyze_provider_invalid _ _ _ _ _ body) by done.
  unfold call_failed. rewrite error_dict_truthy.
  unfold dict_getitem. rewrite lookup_singleton_eq. run_monad.
  unfold settle. cbn [add_events session_state events].
  by rewrite app_nil_r, <- !app_assoc.
Qed.

Lemma generate_report_success env w key body data :
  user_text (session_state w) ≠ "" →
  secrets env !! "GEMINI_API_KEY" = Some key →
  genai_Client env (Some key) = None →
  provider env (Some key) (session_request w) = Ret body →
  body ≫= model_validate UserAnalysis = Some data →
  generate_report env w =
    (Ret tt, settle w data [entry_of (Timestamp_now env) data]
       [EvSecrets "GEMINI_API_KEY"; EvSpinner spinner_text; EvClient (Some key);
        EvGenerateContent (Some key) (session_request w)]).
Proof.
  intros H1 H2 H3 H4 H5. enter_report H1 H2.
  rewrite (analyze_success _ _ _ _ _ body data) by done.
  rewrite success_dict_not_error.
  unfold dict_getitem at 1.
  rewrite lookup_insert_ne, lookup_singleton_eq by done. run_monad.
  destruct body as [j|]; [|discriminate]. cbn [mbind option_bind] in H5.
  apply validate_UserAnalysis_shape in H5
    as (o & m & s & t1 & t2 & mv & bk & -> & -> & _).
  unfold getitem, dict_getitem. simplify_map_eq. run_monad.
  unfold settle, entry_of, field, dict_get. simplify_map_eq.
  cbn [add_events session_state events default count len].
  by rewrite <- !app_assoc.
Qed.

(** ** One press of the button, and runs *)

Lemma submit_cases env i w :
  let w0 := set_widgets i w in
  (outcome env i = ValidationError
   ∧ submit (env, i) w =
       (Ret tt, settle w0 PyNone [] [EvError (PyStr validation_message)]))
  ∨ (outcome env i = CredentialsError
     ∧ ∃ evs msg,
         submit (env, i) w =
           (Ret tt, settle w0 PyNone [] (evs ++ [EvError (PyStr msg)]))
         ∧ model_calls evs = 0%nat)
  ∨ (∃ msg evs,
       outcome env i = ProviderError msg
       ∧ submit (env, i) w =
           (Ret tt, settle w0 PyNone [] (evs ++ [EvError (PyStr msg)])))
  ∨ (∃ data evs,
       outcome env i = Success data
       ∧ submit (env, i) w =
           (Ret tt,
            settle w0 data [entry_of (Timestamp_now env) data] evs)).
Proof.
  intros w0. unfold submit, outcome. cbn [fst snd]. fold w0.
  assert (Htext : user_text (session_state w0) = w_user_text i) by done.
  assert (Hreq : session_request w0 =
                 request_for (w_user_text i) (requested_movies i)
                   (requested_books i)) by done.
  case_bool_decide as Hempty.
  { left. split; [done|]. apply generate_report_empty. congruence. }
  assert (user_text (session_state w0) ≠ "") as Hne by congruence.
  destruct (secrets env !! "GEMINI_API_KEY") as [key|] eqn:Hkey.
  2:{ right; left. split; [done|].
      exists [EvSecrets "GEMINI_API_KEY"], credentials_message.
      split; [|done]. by apply generate_report_no_secret. }
  destruct (genai_Client env (Some key)) as [e|] eqn:Hclient.
  { right; left. split; [done|].
    exists [EvSecrets "GEMINI_API_KEY"; EvSpinner spinner_text; EvClient (Some key)],
      (client_error (exn_str e)).
    split; [|done]. by apply generate_report_client_refused. }
  rewrite <- Hreq.
  set (sent := [EvSecrets "GEMINI_API_KEY"; EvSpinner spinner_text;
                EvClient (Some key);
                EvGenerateContent (Some key) (session_request w0)]).
  destruct (provider env (Some key) (session_request w0)) as [body|e] eqn:Hprov.
  2:{ right; right; left. exists (call_failed (exn_str e)), sent.
      split; [done|]. by apply (generate_report_provider_raises _ _ key e). }
  destruct (body ≫= model_validate UserAnalysis) as [data|] eqn:Hval.
  - right; right; right. exists data, sent. split; [done|].
    by apply (generate_report_success _ _ key body data).
  - right; right; left. exists (call_failed no_parsed_object), sent.
    split; [done|]. by apply (generate_report_provider_invalid _ _ key body).
Qed.

Lemma submit_settles a w :
  ∃ evs,
    submit a w =
      (Ret tt,
       settle (set_widgets (snd a) w) (report_after a)
         (option_list (contribution a)) evs).
Proof.
  destruct a as [env i]. unfold report_after, contribution. cbn [fst snd].
  destruct (submit_cases env i w)
    as [[-> ->]|[[-> (evs & msg & -> & _)]
       |[(msg & evs & -> & ->)|(data & evs & -> & ->)]]]; eauto.
Qed.

Lemma history_settle w report entries evs :
  history (session_state (settle w report entries evs)) =
    history (session_state w) ++ entries.
Proof. done. Qed.

Lemma run_history attempts : ∀ w,
  history (session_state (run attempts w)) =
    history (session_state w) ++ omap contribution attempts.
Proof.
  induction attempts as [|a attempts IH]; intros w.
  { cbn. by rewrite app_nil_r. }
  unfold run in *. cbn [foldl]. rewrite IH.
  destruct (submit_settles a w) as [evs ->]. cbn [snd].
  rewrite history_settle. cbn [set_widgets session_state history omap].
  rewrite <- app_assoc. f_equal. cbn [omap list_omap].
  by destruct (contribution a).
Qed.

Lemma run_snoc attempts a w :
  run (attempts ++ [a]) w = snd (submit a (run attempts w)).
Proof. unfold run. by rewrite foldl_app. Qed.


(** ** Shared facts about the orchestrator and the score map *)

Lemma model_calls_app evs evs' :
  model_calls (evs ++ evs') = (model_calls evs + model_calls evs')%nat.
Proof. unfold model_calls. by rewrite List.filter_app, length_app. Qed.


Lemma mood_score_map_dom : dom mood_score_map = list_to_set Mood.
Proof. vm_compute. reflexivity. Qed.



(** ** What a successful attempt records *)

Lemma outcome_success_validated env i data :
  outcome env i = Success data →
  ∃ j, model_validate UserAnalysis j = Some data.
Proof.
  unfold outcome. case_bool_decide; [done|].
  destruct (secrets env !! "GEMINI_API_KEY") as [key|]; [|done].
  destruct (genai_Client env (Some key)); [done|].
  destruct (provider env (Some key) _) as [[j|]|]; [|done..].
  cbn [mbind option_bind].
  destruct (model_validate UserAnalysis j) as [d|] eqn:Hval; [|done].
  intros [= <-]. by exists j.
Qed.

(** The entry of a successful attempt holds a mood of the enumeration, the
    summary, and the lengths of the two lists of the result. *)
Lemma entry_of_success env i data now :
  outcome env i = Success data →
  ∃ label text mv bk,
    label ∈ Mood
    ∧ field data "movie_recommendations" = PyList mv
    ∧ field data "book_recommendations" = PyList bk
    ∧ entry_of now data =
        mkHistoryEntry now (PyStr label) (PyStr text)
          (Z.of_nat (length mv)) (Z.of_nat (length bk)).
Proof.
  intros [j Hval]%outcome_success_validated.
  apply validate_UserAnalysis_shape in Hval
    as (o & label & text & tip1 & tip2 & mv & bk & _ & -> & Hlabel & _).
  exists label, text, mv, bk. unfold entry_of, field, dict_get.
  by simplify_map_eq.
Qed.

(** The promotion scenario: no recommendation is requested, the provider
    answers with mood Happy, and the history gains one entry without
    movies or books. *)
Example scenario_promotion :
  let w := snd (submit (env_answering (Some (PyDict happy_body)), promotion)
                  fresh_world) in
  history (session_state w) =
    [mkHistoryEntry 1000 (PyStr "Happy") (PyStr "Good news at work.") 0 0]
  ∧ field (report_data (session_state w)) "overall_mood" = PyStr "Happy"
  ∧ field (report_data (session_state w)) "movie_recommendations" = PyList []
  ∧ field (report_data (session_state w)) "book_recommendations" = PyList []
  ∧ model_calls (events w) = 1%nat.
Proof. by vm_compute. Qed.

(** The instruction when a clause is present: the clause follows the head
    after one space and is followed by the full stop; with both counts
    positive the movie clause comes first and a comma joins the two. *)
Lemma system_instruction_with_clauses n m :
  (0 < n → ¬ 0 < m →
   system_instruction n m =
     instruction_head +:+ " " +:+ movie_clause n +:+ ". " +:+ instruction_tail)
  ∧ (¬ 0 < n → 0 < m →
     system_instruction n m =
       instruction_head +:+ " " +:+ book_clause m +:+ ". " +:+ instruction_tail)
  ∧ (0 < n → 0 < m →
     system_instruction n m =
       instruction_head +:+ " " +:+ (movie_clause n +:+ "," +:+ book_clause m)
       +:+ ". " +:+ instruction_tail)
  ∧ (¬ 0 < n → ¬ 0 < m →
     system_instruction n m = instruction_head +:+ " . " +:+ instruction_tail).
Proof.
  unfold system_instruction. split_and!; intros Hn Hm.
  - by rewrite recommendation_instructions_movies.
  - by rewrite recommendation_instructions_books.
  - by rewrite recommendation_instructions_both.
  - by rewrite recommendation_instructions_none.
Qed.

(** ** The claims *)

(** C1.  With both counts 0 the composed instruction carries no
    recommendation clause, but the space that precedes the clause slot is
    not stripped: the text before the closing sentence reads
    "... to that mood ." and so ends in a separator. *)
Theorem zero_counts_leave_dangling_separator :
  recommendation_instructions 0 0 = ""
  ∧ str_contains "suggest" (system_instruction 0 0) = false
  ∧ system_instruction 0 0 = instruction_head +:+ " . " +:+ instruction_tail
  ∧ system_instruction 0 0 = before_closing 0 0 +:+ ". " +:+ instruction_tail
  ∧ last_char (before_closing 0 0) = last_char " "
  ∧ dangling_separator (before_closing 0 0) = true.
Proof. vm_compute. done. Qed.










(** C7.  The score map is defined on exactly the nine mood labels, with
    the reference values. *)
Theorem mood_score_map_reference_scale :
  (λ m, mood_score_map !! m) <$> Mood = Some <$> [5; 4; 3; 3; 2; 2; 1; 1; 1]
  ∧ mood_score_map !! "Joyful" = Some 5
  ∧ mood_score_map !! "Happy" = Some 4
  ∧ mood_score_map !! "Calm" = Some 3
  ∧ mood_score_map !! "Neutral" = Some 3
  ∧ mood_score_map !! "Anxious" = Some 2
  ∧ mood_score_map !! "Stressed" = Some 2
  ∧ mood_score_map !! "Sad" = Some 1
  ∧ mood_score_map !! "Angry" = Some 1
  ∧ mood_score_map !! "Frustrated" = Some 1
  ∧ dom mood_score_map = list_to_set Mood
  ∧ score_column ((λ m, mkHistoryEntry 0 (PyStr m) PyNone 0 0) <$> Mood) =
      Ret (Some <$> [5; 4; 3; 3; 2; 2; 1; 1; 1]).
Proof. split_and!; try (vm_compute; reflexivity). Qed.







(** * Further properties *)

(** ** The report panel *)

Ltac run_page :=
  cbv [bind ret raise gets modify lift try_except show in_expander];
  cbn [fst snd].

Lemma validate_Recommendation_shape j v :
  model_validate Recommendation j = Some v →
  ∃ title reason, v = recommendation title reason.
Proof.
  intros H. destruct j as [| | | | |o]; try discriminate.
  unfold Recommendation in H.
  apply model_validate_TModel_cons in H as (v1 & m1 & F1 & H & ->).
  apply model_validate_TModel_cons in H as (v2 & m2 & F2 & H & [= ->]).
  rewrite model_validate_TModel_nil in H. injection H as <-.
  apply required_field in F1 as (j1 & _ & (title & _ & ->)%model_validate_TStr).
  apply required_field in F2 as (j2 & _ & (reason & _ & ->)%model_validate_TStr).
  by exists title, reason.
Qed.

Lemma validate_recommendations_shape l items :
  mapM (model_validate Recommendation) l = Some items →
  Forall (λ v, ∃ title reason, v = recommendation title reason) items.
Proof.
  intros H. apply mapM_Some in H.
  induction H as [|j v l items Hv _ IH]; constructor; [|done].
  by apply validate_Recommendation_shape in Hv.
Qed.

Lemma validated_list_shape (o : gmap string PyVal) k items :
  match o !! k with
  | Some j => model_validate (TList Recommendation) j
  | None => Some (PyList [])
  end = Some (PyList items) →
  Forall (λ v, ∃ title reason, v = recommendation title reason) items.
Proof.
  destruct (o !! k) as [j|].
  - intros (l & items' & _ & [= ->] & H)%model_validate_TList.
    by apply validate_recommendations_shape in H.
  - intros [= <-]. constructor.
Qed.

(** The shape of a validated result, lists included. *)
Lemma valid_analysis_shape data :
  valid_analysis data →
  ∃ label text tip1 tip2 mv bk,
    data = PyDict (<["overall_mood" := PyStr label]> (<["mood_summary" := PyStr text]>
             (<["health_tip_1" := PyStr tip1]> (<["health_tip_2" := PyStr tip2]>
             (<["movie_recommendations" := PyList mv]>
             (<["book_recommendations" := PyList bk]> ∅))))))
    ∧ label ∈ Mood
    ∧ Forall (λ v, ∃ title reason, v = recommendation title reason) mv
    ∧ Forall (λ v, ∃ title reason, v = recommendation title reason) bk.
Proof.
  intros [j Hval].
  apply validate_UserAnalysis_shape in Hval
    as (o & label & text & tip1 & tip2 & mv & bk
        & _ & -> & Hlabel & _ & _ & _ & _ & Hmv & Hbk).
  exists label, text, tip1, tip2, mv, bk. split_and!; [done|done|..].
  - by apply validated_list_shape in Hmv.
  - by apply validated_list_shape in Hbk.
Qed.

Lemma for_each_recommendations items page :
  Forall (λ v, ∃ title reason, v = recommendation title reason) items →
  for_each items show_recommendation page =
    (Ret tt, page ++ recommendation_rows items).
Proof.
  intros H. revert page.
  induction H as [|v items (title & reason & ->) _ IH]; intros page.
  { cbn. by rewrite app_nil_r. }
  cbn [for_each]. unfold show_recommendation at 1, recommendation.
  unfold getitem, dict_getitem. simplify_map_eq. run_page.
  rewrite IH. unfold recommendation_rows. cbn [mbind list_bind].
  unfold field, dict_get. simplify_map_eq. cbn [default].
  by rewrite <- !app_assoc.
Qed.

Lemma media_label kind n :
  kind +:+ " (" +:+ format_int n +:+ ")" =
  (kind +:+ " (") +:+ format_int n +:+ ")".
Proof.
  induction kind as [|a kind IH]; [done|].
  change (String a kind +:+ ?x) with (String a (kind +:+ x)).
  by rewrite IH.
Qed.

Lemma display_report_valid_page data page :
  valid_analysis data →
  display_report data page =
    (Ret tt,
     page ++ report_head data
       ++ media_section (items_of (field data "movie_recommendations"))
            (items_of (field data "book_recommendations"))).
Proof.
  intros (label & text & tip1 & tip2 & mv & bk & -> & _ & Hmv & Hbk)%valid_analysis_shape.
  unfold display_report, report_head, field, dict_get, getitem, dict_getitem.
  simplify_map_eq. cbn [default items_of]. run_page.
  cbn [truthy len iterate].
  destruct mv as [|m mv]; destruct bk as [|b bk];
    cbn [negb bool_decide decide_rel list_eq_nil_dec media_section media_group];
    run_page; rewrite ?for_each_recommendations by done;
    rewrite ?(media_label "Movies"), ?(media_label "Books");
    cbn [app]; by rewrite <- ?app_assoc.
Qed.

Lemma cinema_data_valid : valid_analysis cinema_data.
Proof. exists (PyDict cinema_body). by vm_compute. Qed.

(** X1.  On a validated result [display_report] never raises: it writes the
    eight elements of the head and then the media section, which is absent
    when both lists are empty and otherwise has one expander per non-empty
    list, labelled with the length of the list and holding the title and the
    reason of each recommendation in the order of the list. *)
Theorem display_report_valid data page :
  valid_analysis data →
  display_report data page =
    (Ret tt,
     page ++ report_head data
       ++ media_section (items_of (field data "movie_recommendations"))
            (items_of (field data "book_recommendations"))).
Proof. apply display_report_valid_page. Qed.

Lemma display_report_valid_witness :
  valid_analysis cinema_data
  ∧ display_report cinema_data [] =
      (Ret tt,
       [] ++ report_head cinema_data
         ++ media_section (items_of (field cinema_data "movie_recommendations"))
              (items_of (field cinema_data "book_recommendations"))).
Proof.
  split; [exact cinema_data_valid|].
  apply (display_report_valid cinema_data []). exact cinema_data_valid.
Defined.

Example cinema_page :
  snd (display_report cinema_data []) =
    report_head cinema_data
    ++ [UiDivider; UiMarkdown "### 🎬 Media Recommendations"; UiColumns 2;
        UiExpander 0 "Movies (1)"
          [UiWrite [FLit "**"; FVal (PyStr "Paddington"); FLit "**"];
           UiCaption (PyStr "Gentle and funny.")]].
Proof. by vm_compute. Qed.

(** X2.  On a dictionary without ["overall_mood"] (an error dictionary, for
    one) [display_report] raises [KeyError] after the heading and the two
    columns, before anything of the report is shown. *)
Theorem display_report_missing_mood (d : gmap string PyVal) page :
  d !! "overall_mood" = None →
  display_report (PyDict d) page =
    (Raise (mkExn KeyError "'overall_mood'"),
     page ++ [UiMarkdown "### ✨ Personalized Wellness Report"; UiColumns 2]).
Proof.
  intros H. unfold display_report, getitem, dict_getitem. rewrite H.
  run_page. by rewrite <- app_assoc.
Qed.

Lemma display_report_missing_mood_witness :
  ({[ "error" := PyStr "boom" ]} : gmap string PyVal) !! "overall_mood" = None
  ∧ fst (display_report (PyDict {[ "error" := PyStr "boom" ]}) []) =
      Raise (mkExn KeyError "'overall_mood'").
Proof.
  split; [reflexivity|].
  rewrite (display_report_missing_mood {[ "error" := PyStr "boom" ]} []);
    reflexivity.
Defined.

Lemma valid_analysis_truthy data : valid_analysis data → truthy data = true.
Proof.
  intros (label & text & tip1 & tip2 & mv & bk & -> & _)%valid_analysis_shape.
  cbn [truthy]. rewrite bool_decide_eq_false_2; [done|].
  rewrite dom_insert_L. set_solver.
Qed.

Lemma outcome_success_valid env i data :
  outcome env i = Success data → valid_analysis data.
Proof. apply outcome_success_validated. Qed.


Lemma contribution_ok a e :
  contribution a = Some e →
  (∃ s, mood e = PyStr s ∧ s ∈ Mood) ∧ 0 ≤ movies e ∧ 0 ≤ books e.
Proof.
  unfold contribution.
  destruct (outcome (fst a) (snd a)) as [data| | |] eqn:Hout; try done.
  intros [= <-].
  destruct (entry_of_success _ _ _ (Timestamp_now (fst a)) Hout)
    as (label & text & mv & bk & Hlabel & _ & _ & ->).
  cbn [mood movies books]. split; [by exists label|lia].
Qed.

Lemma report_after_ok a : report_ok (report_after a).
Proof.
  unfold report_after.
  destruct (outcome (fst a) (snd a)) as [data| | |] eqn:Hout;
    try by left.
  right. by apply outcome_success_valid in Hout.
Qed.

Lemma mood_score_map_bounds s z :
  mood_score_map !! s = Some z → 1 ≤ z ≤ 5.
Proof.
  intros H.
  assert (s ∈ Mood) as Hs.
  { apply (elem_of_list_to_set (C:=gset string)).
    rewrite <- mood_score_map_dom. by apply elem_of_dom_2 in H. }
  unfold Mood in Hs. rewrite !elem_of_cons, elem_of_nil in Hs.
  destruct Hs as [->|[->|[->|[->|[->|[->|[->|[->|[->|[]]]]]]]]]];
    vm_compute in H; injection H as <-; lia.
Qed.

Lemma score_column_ok h :
  history_ok h →
  ∃ scores,
    score_column h = Ret (Some <$> scores)
    ∧ length scores = length h
    ∧ Forall (λ z, 1 ≤ z ≤ 5) scores.
Proof.
  unfold score_column. induction 1 as [|e h ((s & Hs & Hin) & _) _ IH].
  { by exists []. }
  destruct IH as (scores & IH & Hlen & Hbounds).
  destruct (mood_score_map !! s) as [z|] eqn:Hz.
  2:{ apply not_elem_of_dom in Hz. rewrite mood_score_map_dom in Hz.
      by rewrite elem_of_list_to_set in Hz. }
  exists (z :: scores). cbn [fmap list_fmap series_map]. rewrite Hs.
  cbn [map_cell]. rewrite Hz.
  change (series_map mood_score_map (list_fmap _ _ mood h))
    with (series_map mood_score_map (mood <$> h)).
  rewrite IH. split_and!; [done|by cbn; rewrite Hlen|].
  constructor; [by eapply mood_score_map_bounds|done].
Qed.

Lemma display_history_recorded w :
  history_ok (history (session_state w)) →
  ∃ scores,
    length scores = length (history (session_state w))
    ∧ Forall (λ z, 1 ≤ z ≤ 5) scores
    ∧ display_history w =
        (Ret tt,
         add_events w
           [match history (session_state w) with
            | [] => EvSidebarInfo "Submit your first entry to see your mood history!"
            | h => EvLineChart (zip (timestamp <$> h) (Some <$> scores))
            end]).
Proof.
  intros Hok.
  destruct (score_column_ok _ Hok) as (scores & Hrun & Hlen & Hbounds).
  exists scores. split_and!; [done..|].
  unfold display_history. cbv [bind gets lift emit modify].
  destruct (history (session_state w)) as [|e h] eqn:Hh; [done|].
  rewrite bool_decide_eq_false_2 by done. by rewrite Hrun.
Qed.

(** X4.  Any run of attempts keeps the session sound: the report slot holds
    nothing or a validated result, every history entry holds a mood of the
    enumeration and counts that are not negative, and the report area and
    the sidebar are then drawn without an exception. *)
Theorem run_keeps_session_ok attempts w :
  report_ok (report_data (session_state w)) →
  history_ok (history (session_state w)) →
  report_ok (report_data (session_state (run attempts w)))
  ∧ history_ok (history (session_state (run attempts w)))
  ∧ (∀ page, fst (report_area (session_state (run attempts w)) page) = Ret tt)
  ∧ fst (display_history (run attempts w)) = Ret tt.
Proof.
  intros Hreport Hhistory.
  assert (report_ok (report_data (session_state (run attempts w)))
          ∧ history_ok (history (session_state (run attempts w))))
    as [Hreport' Hhistory'];
    [|split_and!; [done|done|..]].
  2:{ intros page. unfold report_area.
      destruct Hreport' as [->|Hvalid]; [done|].
      rewrite valid_analysis_truthy by done.
      cbv [bind show modify]. by rewrite display_report_valid_page. }
  2:{ by destruct (display_history_recorded _ Hhistory') as (? & _ & _ & ->). }
  split.
  - destruct attempts as [|a attempts _] using rev_ind; [done|].
    rewrite run_snoc.
    destruct (submit_settles a (run attempts w)) as [evs ->].
    apply report_after_ok.
  - rewrite run_history. unfold history_ok in *.
    apply Forall_app. split; [done|].
    apply Forall_forall. intros e (a & _ & He)%list_elem_of_omap.
    by apply contribution_ok in He.
Qed.

Lemma run_keeps_session_ok_witness :
  report_ok (report_data (session_state fresh_world))
  ∧ history_ok (history (session_state fresh_world))
  ∧ history_ok
      (history
         (session_state
            (run [(env_answering (Some (PyDict happy_body)), promotion);
                  (env_without_secret, promotion)] fresh_world))).
Proof.
  assert (H1 : report_ok (report_data (session_state fresh_world))) by by left.
  assert (H2 : history_ok (history (session_state fresh_world))) by constructor.
  split_and!; [exact H1|exact H2|].
  apply (run_keeps_session_ok
           [(env_answering (Some (PyDict happy_body)), promotion);
            (env_without_secret, promotion)] fresh_world H1 H2).
Defined.



Lemma mapM_recommendations items :
  Forall (λ v, ∃ title reason, v = recommendation title reason) items →
  mapM (model_validate Recommendation) items = Some items.
Proof.
  intros H. apply mapM_Some. induction H as [|v items (t & r & ->) _ IH];
    constructor; [|done]. by vm_compute.
Qed.

(** X6.  A validated result validates again, to itself: what
    [model_dump] hands to the session is accepted by the schema unchanged. *)
Theorem model_validate_dump_again data :
  valid_analysis data → model_validate UserAnalysis data = Some data.
Proof.
  intros (label & text & tip1 & tip2 & mv & bk & -> & Hlabel & Hmv & Hbk)%valid_analysis_shape.
  unfold UserAnalysis. cbn [model_validate]. simplify_map_eq.
  rewrite bool_decide_eq_true_2 by done.
  cbn [model_validate]. rewrite !mapM_recommendations by done.
  done.
Qed.

Lemma model_validate_dump_again_witness :
  valid_analysis cinema_data
  ∧ model_validate UserAnalysis cinema_data = Some cinema_data.
Proof.
  split; [exact cinema_data_valid|].
  apply (model_validate_dump_again cinema_data). exact cinema_data_valid.
Defined.

Lemma validate_missing_required (o : gmap string PyVal) k :
  k ∈ required_fields → o !! k = None →
  model_validate UserAnalysis (PyDict o) = None.
Proof.
  intros Hk Ho.
  destruct (model_validate UserAnalysis (PyDict o)) as [d|] eqn:Hval; [|done].
  apply validate_UserAnalysis_shape in Hval
    as (o' & label & text & tip1 & tip2 & mv & bk
        & [= <-] & _ & _ & H1 & H2 & H3 & H4 & _).
  unfold required_fields in Hk. rewrite !elem_of_cons, elem_of_nil in Hk.
  destruct Hk as [->|[->|[->|[->|[]]]]]; congruence.
Qed.

Lemma validate_unknown_mood (o : gmap string PyVal) s :
  o !! "overall_mood" = Some (PyStr s) → s ∉ Mood →
  model_validate UserAnalysis (PyDict o) = None.
Proof.
  intros Ho Hs.
  destruct (model_validate UserAnalysis (PyDict o)) as [d|] eqn:Hval; [|done].
  apply validate_UserAnalysis_shape in Hval
    as (o' & label & text & tip1 & tip2 & mv & bk
        & [= <-] & _ & Hlabel & H1 & _).
  congruence.
Qed.

(** X7.  An answer that lacks the mood, the summary or one of the two tips
    does not become a result: [analyze_user_input] returns the error
    dictionary of a failed call. *)
Theorem incomplete_answer_is_an_error env ut nm nb key (o : gmap string PyVal) k w :
  genai_Client env key = None →
  provider env key (request_for ut nm nb) = Ret (Some (PyDict o)) →
  k ∈ required_fields → o !! k = None →
  fst (analyze_user_input env ut nm nb key w) =
    Ret {[ "error" := PyStr (call_failed no_parsed_object) ]}.
Proof.
  intros Hclient Hprov Hk Ho.
  rewrite (analyze_provider_invalid _ _ _ _ _ (Some (PyDict o))); [done..|].
  cbn [mbind option_bind]. by eapply validate_missing_required.
Qed.

Lemma incomplete_answer_is_an_error_witness :
  genai_Client (env_answering (Some (PyDict body_without_tip))) (Some "key") = None
  ∧ "health_tip_2" ∈ required_fields
  ∧ body_without_tip !! "health_tip_2" = None
  ∧ fst (analyze_user_input (env_answering (Some (PyDict body_without_tip)))
           "text" 0 0 (Some "key") fresh_world) =
      Ret {[ "error" := PyStr (call_failed no_parsed_object) ]}.
Proof.
  assert (Hk : "health_tip_2" ∈ required_fields)
    by (unfold required_fields; rewrite !elem_of_cons; tauto).
  split_and!; [reflexivity|exact Hk|reflexivity|].
  apply (incomplete_answer_is_an_error
           (env_answering (Some (PyDict body_without_tip))) "text" 0 0
           (Some "key") body_without_tip "health_tip_2" fresh_world);
    [reflexivity|reflexivity|exact Hk|reflexivity].
Defined.

(** X8.  An answer whose mood is a string outside the nine labels is a
    provider error: the report slot is cleared and the history is
    unchanged, so no such mood reaches the history. *)
Theorem unknown_mood_is_an_error env i (o : gmap string PyVal) s key w :
  w_user_text i ≠ "" →
  secrets env !! "GEMINI_API_KEY" = Some key →
  genai_Client env (Some key) = None →
  provider env (Some key)
    (request_for (w_user_text i) (requested_movies i) (requested_books i))
    = Ret (Some (PyDict o)) →
  o !! "overall_mood" = Some (PyStr s) → s ∉ Mood →
  outcome env i = ProviderError (call_failed no_parsed_object)
  ∧ report_data (session_state (snd (submit (env, i) w))) = PyNone
  ∧ history (session_state (snd (submit (env, i) w))) = history (session_state w).
Proof.
  intros Htext Hkey Hclient Hprov Ho Hs.
  assert (Hout : outcome env i = ProviderError (call_failed no_parsed_object)).
  { unfold outcome. rewrite bool_decide_eq_false_2 by done.
    rewrite Hkey, Hclient, Hprov. cbn [mbind option_bind].
    by rewrite (validate_unknown_mood o s). }
  split; [done|].
  destruct (submit_settles (env, i) w) as [evs ->].
  unfold report_after, contribution. cbn [fst snd]. rewrite Hout.
  cbn [settle session_state report_data history option_list set_widgets].
  by rewrite app_nil_r.
Qed.

Lemma unknown_mood_is_an_error_witness :
  w_user_text promotion ≠ ""
  ∧ secrets (env_answering (Some (PyDict ecstatic_body))) !! "GEMINI_API_KEY"
    = Some "key"
  ∧ ecstatic_body !! "overall_mood" = Some (PyStr "Ecstatic")
  ∧ ("Ecstatic" ∉ Mood)
  ∧ outcome (env_answering (Some (PyDict ecstatic_body))) promotion
    = ProviderError (call_failed no_parsed_object).
Proof.
  assert (H1 : w_user_text promotion ≠ "") by discriminate.
  assert (H2 : "Ecstatic" ∉ Mood).
  { unfold Mood. rewrite !elem_of_cons, elem_of_nil.
    intros [?|[?|[?|[?|[?|[?|[?|[?|[?|[]]]]]]]]]]; discriminate. }
  split_and!; [exact H1|reflexivity|reflexivity|exact H2|].
  apply (unknown_mood_is_an_error
           (env_answering (Some (PyDict ecstatic_body))) promotion ecstatic_body
           "Ecstatic" "key" fresh_world);
    [exact H1|reflexivity|reflexivity|reflexivity|reflexivity|exact H2].
Defined.

(** X9.  A key of the answer that the schema does not declare has no
    effect on validation. *)
Theorem undeclared_keys_are_ignored (o : gmap string PyVal) k v :
  k ∉ UserAnalysis_fields →
  model_validate UserAnalysis (PyDict (<[k:=v]> o)) =
    model_validate UserAnalysis (PyDict o).
Proof.
  intros Hk. unfold UserAnalysis_fields in Hk.
  rewrite !not_elem_of_cons in Hk.
  destruct Hk as (? & ? & ? & ? & ? & ? & _).
  unfold UserAnalysis. cbn [model_validate].
  by rewrite !lookup_insert_ne by done.
Qed.

Lemma undeclared_keys_are_ignored_witness :
  ("confidence" ∉ UserAnalysis_fields)
  ∧ model_validate UserAnalysis (PyDict (<["confidence" := PyInt 9]> happy_body))
    = model_validate UserAnalysis (PyDict happy_body).
Proof.
  assert (H : "confidence" ∉ UserAnalysis_fields).
  { unfold UserAnalysis_fields. rewrite !not_elem_of_cons.
    split_and!; try discriminate. apply not_elem_of_nil. }
  split; [exact H|].
  apply (undeclared_keys_are_ignored happy_body "confidence" (PyInt 9)).
  exact H.
Defined.


(** X11.  With a text, a secret and a client the callback looks the secret
    up, shows the spinner, builds the client with the secret and sends one
    request: the Gemini flash model, the prompt of the text, JSON output
    under the [UserAnalysis] schema, and an instruction whose counts are the
    sliders of the toggles that are on and 0 for those that are off.
    Nothing sent after it is a request. *)
Theorem generate_report_sends_one_request env i key w :
  w_user_text i ≠ "" →
  secrets env !! "GEMINI_API_KEY" = Some key →
  genai_Client env (Some key) = None →
  ∃ shown,
    events (snd (submit (env, i) w)) =
      events w
      ++ [EvSecrets "GEMINI_API_KEY"; EvSpinner spinner_text; EvClient (Some key);
          EvGenerateContent (Some key)
            (mkRequest "gemini-2.5-flash" (prompt (w_user_text i))
               (system_instruction
                  (if w_movie_toggle i then w_num_movies_slider i else 0)
                  (if w_book_toggle i then w_num_books_slider i else 0))
               "application/json" UserAnalysis)]
      ++ shown
    ∧ model_calls shown = 0%nat.
Proof.
  intros Htext Hkey Hclient.
  assert (Hreq : session_request (set_widgets i w) =
                 mkRequest "gemini-2.5-flash" (prompt (w_user_text i))
                   (system_instruction
                      (if w_movie_toggle i then w_num_movies_slider i else 0)
                      (if w_book_toggle i then w_num_books_slider i else 0))
                   "application/json" UserAnalysis).
  { unfold session_request, request_for, session_movies, session_books.
    cbn [set_widgets session_state user_text movie_toggle num_movies_slider
         book_toggle num_books_slider].
    destruct (w_movie_toggle i), (w_book_toggle i); cbn [Z.b2z];
      by rewrite ?Z.mul_1_l, ?Z.mul_0_l. }
  assert (Hne : user_text (session_state (set_widgets i w)) ≠ "") by done.
  unfold submit. cbn [fst snd]. rewrite <- Hreq.
  destruct (provider env (Some key) (session_request (set_widgets i w)))
    as [body|e] eqn:Hprov.
  2:{ rewrite (generate_report_provider_raises _ _ key e) by done.
      by exists [EvError (PyStr (call_failed (exn_str e)))]. }
  destruct (body ≫= model_validate UserAnalysis) as [data|] eqn:Hval.
  - rewrite (generate_report_success _ _ key body data) by done.
    exists []. by rewrite app_nil_r.
  - rewrite (generate_report_provider_invalid _ _ key body) by done.
    by exists [EvError (PyStr (call_failed no_parsed_object))].
Qed.

Lemma generate_report_sends_one_request_witness :
  w_user_text promotion ≠ ""
  ∧ model_calls
      (events
         (snd (submit (env_answering (Some (PyDict happy_body)), promotion)
                 fresh_world))) = 1%nat.
Proof.
  assert (H1 : w_user_text promotion ≠ "") by discriminate.
  split; [exact H1|].
  destruct (generate_report_sends_one_request
              (env_answering (Some (PyDict happy_body))) promotion "key"
              fresh_world H1 eq_refl eq_refl) as (shown & -> & Hshown).
  rewrite !model_calls_app, Hshown. reflexivity.
Defined.

(** X12.  A negative count asks for nothing: the clauses and the
    instruction are those of the counts with negatives replaced by 0. *)
Theorem negative_counts_request_nothing n m :
  recommendation_instructions n m =
    recommendation_instructions (Z.max 0 n) (Z.max 0 m)
  ∧ system_instruction n m = system_instruction (Z.max 0 n) (Z.max 0 m).
Proof.
  assert (recommendation_instructions n m =
          recommendation_instructions (Z.max 0 n) (Z.max 0 m)) as H.
  { destruct (Z.max_spec 0 n) as [[? ->]|[? ->]],
      (Z.max_spec 0 m) as [[? ->]|[? ->]]; try done.
    - rewrite !(recommendation_instructions_movies _ m),
        ?(recommendation_instructions_movies _ 0) by lia. done.
    - rewrite (recommendation_instructions_books n),
        (recommendation_instructions_books 0) by lia. done.
    - rewrite !recommendation_instructions_none by lia. done. }
  split; [done|]. unfold system_instruction. by rewrite H.
Qed.

Lemma rstrip_no_trailing s chars c :
  last_char (rstrip s chars) = Some c → char_in c chars = false.
Proof.
  induction s as [|a s IH]; [done|]. cbn [rstrip].
  destruct (rstrip s chars) as [|b kept] eqn:E.
  - destruct (char_in a chars) eqn:Ha; [done|]. by intros [= <-].
  - intros H. apply IH. exact H.
Qed.

(** X13.  Whatever the counts, the recommendation clauses after the
    [rstrip] do not end in a comma or a space. *)
Theorem clauses_never_end_in_separator n m :
  dangling_separator (recommendation_instructions n m) = false.
Proof.
  unfold dangling_separator.
  destruct (last_char (recommendation_instructions n m)) as [c|] eqn:E; [|done].
  unfold recommendation_instructions in E. by apply rstrip_no_trailing in E.
Qed.





Lemma validate_Recommendation_incomplete (r : gmap string PyVal) k :
  k ∈ ["title"; "reason"] → r !! k = None →
  model_validate Recommendation (PyDict r) = None.
Proof.
  intros Hk Hr.
  destruct (model_validate Recommendation (PyDict r)) as [v|] eqn:Hval; [|done].
  unfold Recommendation in Hval.
  apply model_validate_TModel_cons in Hval as (v1 & m1 & F1 & Hval & _).
  apply model_validate_TModel_cons in Hval as (v2 & m2 & F2 & _ & _).
  apply required_field in F1 as (j1 & L1 & _).
  apply required_field in F2 as (j2 & L2 & _).
  rewrite !elem_of_cons, elem_of_nil in Hk.
  destruct Hk as [->|[->|[]]]; congruence.
Qed.

(** X16.  A recommendation without a title or without a reason, anywhere
    in either list, invalidates the whole answer: no result with part of a
    list is produced. *)
Theorem incomplete_recommendation_rejects_answer
    (o r : gmap string PyVal) list_key k l :
  list_key ∈ ["movie_recommendations"; "book_recommendations"] →
  o !! list_key = Some (PyList l) →
  PyDict r ∈ l →
  k ∈ ["title"; "reason"] → r !! k = None →
  model_validate UserAnalysis (PyDict o) = None.
Proof.
  intros Hlist Ho Hin Hk Hr.
  destruct (model_validate UserAnalysis (PyDict o)) as [d|] eqn:Hval; [|done].
  apply validate_UserAnalysis_shape in Hval
    as (o' & label & text & tip1 & tip2 & mv & bk
        & [= <-] & _ & _ & _ & _ & _ & _ & Hmv & Hbk).
  assert (∃ items, mapM (model_validate Recommendation) l = Some items)
    as [items Hitems].
  { rewrite !elem_of_cons, elem_of_nil in Hlist.
    destruct Hlist as [->|[->|[]]].
    - rewrite Ho in Hmv.
      apply model_validate_TList in Hmv as (l' & items & [= <-] & _ & ?); eauto.
    - rewrite Ho in Hbk.
      apply model_validate_TList in Hbk as (l' & items & [= <-] & _ & ?); eauto. }
  apply mapM_Some in Hitems.
  apply list_elem_of_lookup in Hin as [n Hn].
  destruct (Forall2_lookup_l _ _ _ _ _ Hitems Hn) as (v & _ & Hv).
  by rewrite (validate_Recommendation_incomplete r k) in Hv.
Qed.

Lemma incomplete_recommendation_rejects_answer_witness :
  body_with_bare_title !! "movie_recommendations" =
    Some (PyList [film; PyDict {[ "title" := PyStr "Up" ]}])
  ∧ ({[ "title" := PyStr "Up" ]} : gmap string PyVal) !! "reason" = None
  ∧ model_validate UserAnalysis (PyDict body_with_bare_title) = None.
Proof.
  split_and!; [reflexivity|reflexivity|].
  apply (incomplete_recommendation_rejects_answer body_with_bare_title
           {[ "title" := PyStr "Up" ]} "movie_recommendations" "reason"
           [film; PyDict {[ "title" := PyStr "Up" ]}]).
  - rewrite !elem_of_cons. tauto.
  - reflexivity.
  - rewrite !elem_of_cons. tauto.
  - rewrite !elem_of_cons. tauto.
  - reflexivity.
Defined.
